(** * tgif / helper.py: the generator of the [U8_TO_ARRAY_BOOL] table

    A shallow embedding of the script [helper.py], which prints the Rust
    declaration of a 256-entry table of 8-element boolean arrays, and the
    properties of the text it prints.

    Python values are modelled as follows: [str] is [string], a one-character
    [str] obtained by iterating over a [str] is an [ascii], [int] is [Z], an
    exception is the left injection of a sum.  The script's single variable
    [s] is threaded explicitly through both loops. *)

From Stdlib Require Import ZArith List String Ascii Bool Lia.
Import ListNotations.

Open Scope string_scope.

(** ** Exceptions *)

Inductive exn : Type :=
| ValueError.

Definition result (A : Type) : Type := (exn + A)%type.

Definition Ok {A : Type} (a : A) : result A := inr a.
Definition Raise {A : Type} (e : exn) : result A := inl e.

Definition bind {A B : Type} (m : result A) (k : A -> result B) : result B :=
  match m with
  | inl e => inl e
  | inr a => k a
  end.

Notation "x <- m ;; k" := (bind m (fun x => k))
  (at level 61, m at next level, right associativity).

(** [for x in xs: s = body(s, x)], where the body may raise. *)
Fixpoint for_each {A S : Type} (body : S -> A -> result S) (xs : list A) (s : S)
  : result S :=
  match xs with
  | [] => Ok s
  | x :: xs' => s' <- body s x ;; for_each body xs' s'
  end.

(** ** The Python and numpy primitives the script uses *)

Module Py.

(** [range(n)]. *)
Definition range (n : nat) : list Z := map Z.of_nat (seq 0 n).

(** [s[:-k]] for a positive literal [k]: all but the last [k] characters,
    and the empty string when [s] has fewer than [k]. *)
Definition drop_last (k : nat) (s : string) : string :=
  substring 0 (length s - k) s.

(** [c * n] for a one-character string [c]. *)
Fixpoint replicate (n : nat) (c : ascii) : string :=
  match n with
  | O => ""
  | S n' => String c (replicate n' c)
  end.

(** [bin(p)[2:]] for a positive [p]: its binary digits, most significant
    first, with no leading zero. *)
Fixpoint bin_digits (p : positive) : string :=
  match p with
  | xH => "1"
  | xO q => bin_digits q ++ "0"
  | xI q => bin_digits q ++ "1"
  end.

(** [s.zfill(width)]: pads with ['0'] on the left up to [width]; a leading
    sign stays in front of the padding. *)
Definition zfill (width : nat) (s : string) : string :=
  match s with
  | String c rest =>
      if (Ascii.eqb c "+" || Ascii.eqb c "-")%bool
      then String c (replicate (width - length s) "0" ++ rest)
      else replicate (width - length s) "0" ++ s
  | EmptyString => replicate width "0"
  end.

(** [s.endswith(suffix)]. *)
Definition endswith (s suffix : string) : bool :=
  String.eqb (substring (length s - length suffix) (length suffix) s) suffix.

End Py.

Module Np.

(** The check numpy runs before it returns: the requested width must hold
    the digits. *)
Definition err_if_insufficient (width binwidth : nat) : result unit :=
  if Nat.ltb width binwidth then Raise ValueError else Ok tt.

(** Modelled from the spec: [numpy.binary_repr(num, width)], a function of
    the numpy library whose code is not among the sources of the repository.
    The specification calls its result "the 8-character binary-digit string
    of n zero-padded to width 8", and line 6 of the script gives
    [0 -> "00000000"]; [binary_repr_bits] below shows that the definition is
    that string on every number the width holds.  Beyond these words the
    definition follows numpy: zero is [width or 1] zeros; a positive number
    is [bin(num)[2:]] filled with zeros to [max(binwidth, width)]; a negative
    number is its two's complement; a width too small for the digits raises
    [ValueError]. *)
Definition binary_repr (num : Z) (width : nat) : result string :=
  match num with
  | Z0 => Ok (Py.replicate (if Nat.eqb width 0 then 1 else width) "0")
  | Zpos p =>
      let binary := Py.bin_digits p in
      let binwidth := length binary in
      let outwidth := Nat.max binwidth width in
      _ <- err_if_insufficient width binwidth ;;
      Ok (Py.zfill outwidth binary)
  | Zneg p =>
      let poswidth := length (Py.bin_digits p) in
      let poswidth :=
        if (2 ^ (Z.of_nat poswidth - 1) =? Zpos p)%Z
        then (poswidth - 1)%nat else poswidth in
      let twocomp := (2 ^ (Z.of_nat poswidth + 1) + num)%Z in
      let binary :=
        match twocomp with
        | Zpos q => Py.bin_digits q
        | _ => "0"
        end in
      let binwidth := length binary in
      let outwidth := Nat.max binwidth width in
      _ <- err_if_insufficient width binwidth ;;
      Ok (Py.replicate (outwidth - binwidth) "1" ++ binary)
  end.

End Np.

(** ** The script *)

(** Line 3: the initial value of [s]. *)
Definition header : string := "const U8_TO_ARRAY_BOOL: [[bool; 8]; 256] = [".

(** Lines 7-10: the body of the inner loop, for one character [c]. *)
Definition inner_body (s : string) (c : ascii) : string :=
  if Ascii.eqb c "0" then s ++ "false, " else s ++ "true, ".

(** Lines 6-10: the inner loop over the characters of [digits]. *)
Definition inner_loop (digits : string) (s : string) : string :=
  fold_left inner_body (list_ascii_of_string digits) s.

(** Lines 5-12: the body of the outer loop, for one [n]. *)
Definition outer_body (s : string) (n : Z) : result string :=
  let s := s ++ "[" in
  digits <- Np.binary_repr n 8 ;;
  let s := inner_loop digits s in
  Ok (Py.drop_last 2 s ++ "], ").

(** Lines 3-14: the value of [s] that is printed. *)
Definition generate : result string :=
  s <- for_each outer_body (Py.range 256) header ;;
  Ok (Py.drop_last 1 s ++ "];").

(** The line feed [print] appends. *)
Definition newline : ascii := "010"%char.

(** Lines 3-16: what the script writes on standard output. *)
Definition main : result string :=
  s <- generate ;;
  Ok (s ++ String newline "").

(** ** The run of the script as a relation

    The same lines once more, as the big-step relation of the two loops: a
    derivation is one run of the script. *)

(** Lines 6-10: [runs_inner cs s s'] when the inner loop over the characters
    [cs], entered with [s], leaves [s']. *)
Inductive runs_inner : list ascii -> string -> string -> Prop :=
| inner_done : forall s,
    runs_inner [] s s
| inner_zero : forall c cs s s',
    c = "0"%char ->
    runs_inner cs (s ++ "false, ") s' ->
    runs_inner (c :: cs) s s'
| inner_other : forall c cs s s',
    c <> "0"%char ->
    runs_inner cs (s ++ "true, ") s' ->
    runs_inner (c :: cs) s s'.

(** Lines 4-12: [runs_outer ns s r] when the outer loop over [ns], entered
    with [s], ends in [r]: the final [s], or the exception that stopped it. *)
Inductive runs_outer : list Z -> string -> result string -> Prop :=
| outer_done : forall s,
    runs_outer [] s (Ok s)
| outer_next : forall n ns s digits s' r,
    Np.binary_repr n 8 = Ok digits ->
    runs_inner (list_ascii_of_string digits) (s ++ "[") s' ->
    runs_outer ns (Py.drop_last 2 s' ++ "], ") r ->
    runs_outer (n :: ns) s r
| outer_raise : forall n ns s e,
    Np.binary_repr n 8 = Raise e ->
    runs_outer (n :: ns) s (Raise e).

(** Lines 3-16: [runs_script r] when a run of the script ends in [r]: what it
    has written on standard output, or the exception that stopped it. *)
Inductive runs_script : result string -> Prop :=
| script_prints : forall s,
    runs_outer (Py.range 256) header (Ok s) ->
    runs_script (Ok ((Py.drop_last 1 s ++ "];") ++ String newline ""))
| script_raises : forall e,
    runs_outer (Py.range 256) header (Raise e) ->
    runs_script (Raise e).

(** ** Reading the printed declaration

    The table a Rust compiler reads from the printed text: the tokens of the
    declaration, then the array of arrays of [bool] literals after the [=]
    sign.  An element list may end with a comma, as in Rust. *)

Module Rust.

Inductive token : Type :=
| LBracket
| RBracket
| Comma
| Semi
| Colon
| Equal
| Word (w : string).

Definition is_word_char (c : ascii) : bool :=
  let n := nat_of_ascii c in
  ((48 <=? n) && (n <=? 57) || (65 <=? n) && (n <=? 90)
   || (97 <=? n) && (n <=? 122) || (n =? 95))%nat%bool.

Definition flush (word : string) (ts : list token) : list token :=
  match word with
  | EmptyString => ts
  | _ => Word word :: ts
  end.

(** [lex s word]: the tokens of [s], after the characters [word] of a word
    that is being read. *)
Fixpoint lex (s : string) (word : string) : option (list token) :=
  match s with
  | EmptyString => Some (flush word [])
  | String c s' =>
      if is_word_char c then lex s' (word ++ String c "")
      else
        let punct (t : token) := option_map (fun ts => flush word (t :: ts)) (lex s' "") in
        if Ascii.eqb c " " then option_map (flush word) (lex s' "")
        else if Ascii.eqb c "[" then punct LBracket
        else if Ascii.eqb c "]" then punct RBracket
        else if Ascii.eqb c "," then punct Comma
        else if Ascii.eqb c ";" then punct Semi
        else if Ascii.eqb c ":" then punct Colon
        else if Ascii.eqb c "=" then punct Equal
        else None
  end.

(** The tokens after the first [=]. *)
Fixpoint initializer (ts : list token) : option (list token) :=
  match ts with
  | [] => None
  | Equal :: ts' => Some ts'
  | _ :: ts' => initializer ts'
  end.

Definition bool_of_word (w : string) : option bool :=
  if String.eqb w "true" then Some true
  else if String.eqb w "false" then Some false
  else None.

(** Where the reader stands; the flag says that an element has just been
    read, so that a comma or the closing bracket must follow. *)
Inductive place : Type :=
| Start
| InTable (after_element : bool)
| InRow (after_element : bool)
| Closed
| Finished.

Fixpoint read (ts : list token) (p : place)
         (rows : list (list bool)) (row : list bool)
  : option (list (list bool)) :=
  match ts with
  | [] =>
      match p with
      | Finished => Some rows
      | _ => None
      end
  | t :: ts' =>
      match p, t with
      | Start, LBracket => read ts' (InTable false) rows row
      | InTable false, LBracket => read ts' (InRow false) rows []
      | InTable true, Comma => read ts' (InTable false) rows row
      | InTable _, RBracket => read ts' Closed rows row
      | InRow false, Word w =>
          match bool_of_word w with
          | Some b => read ts' (InRow true) rows (row ++ [b])
          | None => None
          end
      | InRow true, Comma => read ts' (InRow false) rows row
      | InRow _, RBracket => read ts' (InTable true) (rows ++ [row]) []
      | Closed, Semi => read ts' Finished rows row
      | _, _ => None
      end
  end.

Definition read_table (text : string) : option (list (list bool)) :=
  match lex text "" with
  | Some ts =>
      match initializer ts with
      | Some ts' => read ts' Start [] []
      | None => None
      end
  | None => None
  end.

End Rust.

(** ** The table and the text the specification describes *)

(** The bits of [n] on [w] positions, most significant first: position [i]
    holds bit [w - 1 - i]. *)
Definition bits_msb (n : Z) (w : nat) : list bool :=
  map (fun i => Z.testbit n (Z.of_nat (w - 1 - i))) (seq 0 w).

(** The table of the specification: entry [n] holds the 8 bits of [n]. *)
Definition spec_table : list (list bool) :=
  map (fun n => bits_msb n 8) (Py.range 256).

(** [true -> '1'], [false -> '0']. *)
Definition digit_of_bool (b : bool) : ascii :=
  if b then "1"%char else "0"%char.

Definition digits_of_bools (bs : list bool) : string :=
  string_of_list_ascii (map digit_of_bool bs).

(** The number a sequence of bits denotes, most significant bit first. *)
Definition value_of_bits (bs : list bool) : Z :=
  fold_left (fun acc b => (2 * acc + Z.b2z b)%Z) bs 0%Z.

(** A boolean literal and a bracketed, comma-separated row of them. *)
Definition show_bool (b : bool) : string :=
  if b then "true" else "false".

Definition row_literal (bs : list bool) : string :=
  "[" ++ String.concat ", " (map show_bool bs) ++ "]".

(** The text in the form the specification states: the rows, each in its own
    bracket, comma-separated, inside the outer bracket after the name and
    type, closed by [];]. *)
Definition spec_text (rows : list (list bool)) : string :=
  header ++ String.concat ", " (map row_literal rows) ++ "];".

(** The items, each followed by [sep]: what a loop that appends [x + sep] for
    every item builds. *)
Fixpoint terminated (sep : string) (items : list string) : string :=
  match items with
  | [] => ""
  | x :: items' => x ++ sep ++ terminated sep items'
  end.

(** The byte values: the elements of [range(256)]. *)
Definition is_byte (n : Z) : Prop := (0 <= n < 256)%Z.

(** A string with no line feed in it. *)
Definition newline_free (s : string) : Prop :=
  ~ In newline (list_ascii_of_string s).

(** The number of line feeds of a string. *)
Definition newlines (s : string) : nat :=
  count_occ ascii_dec (list_ascii_of_string s) newline.

(** The mapping of digits the specification states, defined for ['0'] and
    ['1'] only. *)
Definition spec_literal (c : ascii) : option string :=
  if Ascii.eqb c "0" then Some "false, "
  else if Ascii.eqb c "1" then Some "true, "
  else None.

Fixpoint spec_inner_loop (cs : list ascii) (s : string) : option string :=
  match cs with
  | [] => Some s
  | c :: cs' =>
      match spec_literal c with
      | Some lit => spec_inner_loop cs' (s ++ lit)
      | None => None
      end
  end.

(** The literal lines 7-10 choose for a character [c], whatever it is. *)
Definition word_of_digit (c : ascii) : string :=
  if Ascii.eqb c "0" then "false" else "true".

(** The printable characters of ASCII, space included. *)
Definition printable (c : ascii) : bool :=
  let n := nat_of_ascii c in ((32 <=? n) && (n <=? 126))%nat.

Definition all_printable (s : string) : Prop :=
  Forall (fun c => printable c = true) (list_ascii_of_string s).

(** ** Results and strings *)

Lemma Ok_inj {A : Type} (a b : A) : Ok a = Ok b -> a = b.
Proof.
  intros H. now injection H.
Qed.

Section Strings.

Lemma append_assoc (a b c : string) : (a ++ b) ++ c = a ++ (b ++ c).
Proof.
  induction a as [|x a IH]; simpl; [reflexivity | now rewrite IH].
Qed.

Lemma append_empty_r (a : string) : a ++ "" = a.
Proof.
  induction a as [|x a IH]; simpl; [reflexivity | now rewrite IH].
Qed.

Lemma length_append (a b : string) : length (a ++ b) = length a + length b.
Proof.
  induction a as [|x a IH]; simpl; [reflexivity | now rewrite IH].
Qed.

Lemma substring_all (s : string) : substring 0 (length s) s = s.
Proof.
  induction s as [|x s IH]; simpl; [reflexivity | now rewrite IH].
Qed.

Lemma substring_append (a b : string) (m : nat) :
  substring 0 (length a + m) (a ++ b) = a ++ substring 0 m b.
Proof.
  induction a as [|x a IH]; simpl; [reflexivity | now rewrite IH].
Qed.

Lemma substring_none (s : string) : substring 0 0 s = "".
Proof. destruct s; reflexivity. Qed.

(** [(a + b)[:-k] = a + b[:-k]] as long as [b] has [k] characters. *)
Lemma drop_last_append (k : nat) (a b : string) :
  k <= length b -> Py.drop_last k (a ++ b) = a ++ Py.drop_last k b.
Proof.
  intros Hk. unfold Py.drop_last.
  rewrite length_append.
  replace (length a + length b - k) with (length a + (length b - k)) by lia.
  apply substring_append.
Qed.

Lemma drop_last_all (b : string) : Py.drop_last (length b) b = "".
Proof.
  unfold Py.drop_last. rewrite Nat.sub_diag. apply substring_none.
Qed.

Lemma drop_last_suffix (a b : string) : Py.drop_last (length b) (a ++ b) = a.
Proof.
  rewrite drop_last_append by lia.
  now rewrite drop_last_all, append_empty_r.
Qed.

Lemma list_ascii_of_append (a b : string) :
  list_ascii_of_string (a ++ b)
  = (list_ascii_of_string a ++ list_ascii_of_string b)%list.
Proof.
  induction a as [|x a IH]; simpl; [reflexivity | now rewrite IH].
Qed.

Lemma length_string_of_list_ascii (l : list ascii) :
  length (string_of_list_ascii l) = List.length l.
Proof.
  induction l as [|x l IH]; simpl; [reflexivity | now rewrite IH].
Qed.

Lemma string_of_list_ascii_app (l1 l2 : list ascii) :
  string_of_list_ascii (l1 ++ l2)
  = string_of_list_ascii l1 ++ string_of_list_ascii l2.
Proof.
  induction l1 as [|x l1 IH]; simpl; [reflexivity | now rewrite IH].
Qed.

Lemma list_ascii_of_substring (n : nat) (s : string) :
  list_ascii_of_string (substring 0 n s) = firstn n (list_ascii_of_string s).
Proof.
  revert n; induction s as [|x s IH]; intros [|n]; simpl;
    try reflexivity.
  now rewrite IH.
Qed.

Lemma replicate_snoc (n : nat) (c : ascii) :
  Py.replicate (S n) c = Py.replicate n c ++ String c "".
Proof.
  induction n as [|n IH]; [reflexivity |].
  simpl. f_equal. exact IH.
Qed.

Lemma length_replicate (n : nat) (c : ascii) : length (Py.replicate n c) = n.
Proof.
  induction n as [|n IH]; simpl; [reflexivity | now rewrite IH].
Qed.

End Strings.

(** ** [binary_repr] and the bits of the number *)

Section BinaryRepr.

(** The example of line 6 of the script, and the examples numpy's
    documentation gives for a width. *)
Example binary_repr_0 : Np.binary_repr 0 8 = Ok "00000000".
Proof. reflexivity. Qed.

Example binary_repr_3_4 : Np.binary_repr 3 4 = Ok "0011".
Proof. reflexivity. Qed.

Example binary_repr_neg3_3 : Np.binary_repr (-3) 3 = Ok "101".
Proof. reflexivity. Qed.

Example binary_repr_neg3_5 : Np.binary_repr (-3) 5 = Ok "11101".
Proof. reflexivity. Qed.

Example binary_repr_256_8 : Np.binary_repr 256 8 = Raise ValueError.
Proof. reflexivity. Qed.

Lemma bits_msb_snoc (n : Z) (w : nat) :
  bits_msb n (S w) = (bits_msb (Z.div2 n) w ++ [Z.testbit n 0])%list.
Proof.
  unfold bits_msb. rewrite seq_S, map_app. f_equal.
  - apply map_ext_in. intros i Hi. apply in_seq in Hi.
    rewrite Z.div2_spec, Z.shiftr_spec by lia. f_equal. lia.
  - simpl. replace (w - 0 - w) with 0 by lia. reflexivity.
Qed.

Lemma length_bits_msb (n : Z) (w : nat) : List.length (bits_msb n w) = w.
Proof.
  unfold bits_msb. now rewrite length_map, length_seq.
Qed.

Lemma digits_of_bools_app (l1 l2 : list bool) :
  digits_of_bools (l1 ++ l2) = digits_of_bools l1 ++ digits_of_bools l2.
Proof.
  unfold digits_of_bools. now rewrite map_app, string_of_list_ascii_app.
Qed.

Lemma digits_of_zero (w : nat) :
  digits_of_bools (bits_msb 0 w) = Py.replicate w "0".
Proof.
  induction w as [|w IH]; [reflexivity |].
  rewrite bits_msb_snoc, digits_of_bools_app, replicate_snoc.
  simpl Z.div2. now rewrite IH.
Qed.

(** [bin] never starts with a zero, nor with a sign. *)
Lemma bin_digits_head (p : positive) :
  exists rest, Py.bin_digits p = String "1" rest.
Proof.
  induction p as [p [r E]|p [r E]|]; simpl; try rewrite E; simpl;
    eexists; reflexivity.
Qed.

Lemma zfill_bin_digits (w : nat) (p : positive) :
  Py.zfill w (Py.bin_digits p)
  = Py.replicate (w - length (Py.bin_digits p)) "0" ++ Py.bin_digits p.
Proof.
  destruct (bin_digits_head p) as [r E]. rewrite E. reflexivity.
Qed.

Lemma length_bin_digits (p : positive) :
  forall w : nat, (Zpos p < 2 ^ Z.of_nat w)%Z -> length (Py.bin_digits p) <= w.
Proof.
  induction p as [p IH|p IH|]; intros [|w] H; simpl;
    rewrite ?length_append; simpl;
    try (change (2 ^ Z.of_nat 0)%Z with 1%Z in H; lia);
    rewrite Nat2Z.inj_succ, Z.pow_succ_r in H by lia.
  - specialize (IH w). lia.
  - specialize (IH w). lia.
Qed.

Lemma padded_bin_digits (p : positive) :
  forall w : nat,
    length (Py.bin_digits p) <= w ->
    Py.replicate (w - length (Py.bin_digits p)) "0" ++ Py.bin_digits p
    = digits_of_bools (bits_msb (Zpos p) w).
Proof.
  induction p as [p IH|p IH|]; intros [|w] H; simpl in H;
    rewrite ?length_append in H; simpl in H; try lia;
    rewrite bits_msb_snoc, digits_of_bools_app; simpl Z.div2.
  - rewrite <- IH by lia. simpl Py.bin_digits.
    rewrite length_append, <- append_assoc. simpl length.
    replace (S w - (length (Py.bin_digits p) + 1))
      with (w - length (Py.bin_digits p)) by lia.
    reflexivity.
  - rewrite <- IH by lia. simpl Py.bin_digits.
    rewrite length_append, <- append_assoc. simpl length.
    replace (S w - (length (Py.bin_digits p) + 1))
      with (w - length (Py.bin_digits p)) by lia.
    reflexivity.
  - rewrite digits_of_zero. simpl.
    now rewrite Nat.sub_0_r.
Qed.

(** The bits of a number that fits the width denote the number. *)
Lemma value_of_bits_msb (w : nat) :
  forall n : Z, (0 <= n < 2 ^ Z.of_nat w)%Z -> value_of_bits (bits_msb n w) = n.
Proof.
  induction w as [|w IH]; intros n Hn.
  - change (2 ^ Z.of_nat 0)%Z with 1%Z in Hn. unfold value_of_bits. simpl. lia.
  - rewrite Nat2Z.inj_succ, Z.pow_succ_r in Hn by lia.
    pose proof (Z.div2_odd n) as Hodd.
    assert (Hb : (0 <= Z.b2z (Z.odd n) <= 1)%Z)
      by (destruct (Z.odd n); simpl; lia).
    rewrite bits_msb_snoc. unfold value_of_bits in *.
    rewrite fold_left_app. cbn [fold_left].
    rewrite IH by lia.
    rewrite Z.bit0_odd. lia.
Qed.

(** On a width that holds the number, [binary_repr] returns its bits, most
    significant first, as digits. *)
Lemma binary_repr_bits (n : Z) (w : nat) :
  0 < w -> (0 <= n < 2 ^ Z.of_nat w)%Z ->
  Np.binary_repr n w = Ok (digits_of_bools (bits_msb n w)).
Proof.
  intros Hw [Hn Hlt]. destruct n as [|p|p]; [| |lia].
  - simpl. destruct w as [|w]; [lia |].
    now rewrite digits_of_zero.
  - pose proof (length_bin_digits p w Hlt) as Hlen.
    unfold Np.binary_repr, Np.err_if_insufficient.
    destruct (Nat.ltb_spec w (length (Py.bin_digits p))) as [Hlt'|_]; [lia |].
    simpl. rewrite Nat.max_r by exact Hlen.
    rewrite zfill_bin_digits. f_equal. now apply padded_bin_digits.
Qed.

End BinaryRepr.

(** ** The two loops *)

Section Loops.

Lemma terminated_concat (sep : string) (items : list string) :
  items <> [] -> terminated sep items = String.concat sep items ++ sep.
Proof.
  induction items as [|x [|y items] IH]; intros Hne; [congruence | |].
  - simpl. now rewrite append_empty_r.
  - change (terminated sep (x :: y :: items))
      with (x ++ sep ++ terminated sep (y :: items)).
    change (String.concat sep (x :: y :: items))
      with (x ++ sep ++ String.concat sep (y :: items)).
    rewrite IH by discriminate.
    now rewrite !append_assoc.
Qed.

(** The inner loop appends one literal and a separator per digit. *)
Lemma inner_loop_literals (bs : list bool) :
  forall s, inner_loop (digits_of_bools bs) s
            = s ++ terminated ", " (map show_bool bs).
Proof.
  unfold inner_loop, digits_of_bools.
  rewrite list_ascii_of_string_of_list_ascii.
  induction bs as [|b bs IH]; intros s.
  - simpl. now rewrite append_empty_r.
  - simpl fold_left. rewrite IH.
    destruct b; unfold inner_body; simpl Ascii.eqb; cbv iota;
      now rewrite !append_assoc.
Qed.

(** One turn of the outer loop appends the row of [n] and a separator. *)
Lemma outer_body_row (s : string) (n : Z) :
  is_byte n ->
  outer_body s n = Ok (s ++ row_literal (bits_msb n 8) ++ ", ").
Proof.
  intros Hn. unfold outer_body.
  rewrite (binary_repr_bits n 8) by (exact Hn || lia).
  unfold bind, Ok. f_equal.
  rewrite inner_loop_literals, terminated_concat.
  - rewrite <- append_assoc.
    change 2 with (length ", ").
    rewrite drop_last_suffix.
    unfold row_literal. now rewrite !append_assoc.
  - intros E. apply (f_equal (@List.length _)) in E.
    rewrite length_map, length_bits_msb in E. discriminate.
Qed.

Lemma for_each_rows (ns : list Z) :
  Forall is_byte ns ->
  forall s, for_each outer_body ns s
            = Ok (s ++ terminated ", " (map (fun n => row_literal (bits_msb n 8)) ns)).
Proof.
  induction 1 as [|n ns Hn _ IH]; intros s.
  - simpl. now rewrite append_empty_r.
  - simpl for_each. rewrite outer_body_row by exact Hn.
    unfold bind at 1. unfold Ok at 1. rewrite IH.
    cbn [map terminated]. now rewrite !append_assoc.
Qed.

Lemma range_bytes : Forall is_byte (Py.range 256).
Proof.
  unfold Py.range. apply Forall_forall. intros n Hn.
  apply in_map_iff in Hn. destruct Hn as [k [<- Hk]].
  apply in_seq in Hk. unfold is_byte. lia.
Qed.

(** The printed text: the rows of the table, comma-separated, and one more
    comma before the closing bracket. *)
Lemma generate_text :
  generate
  = Ok (header ++ String.concat ", " (map row_literal spec_table) ++ ",];").
Proof.
  unfold generate. rewrite (for_each_rows _ range_bytes).
  unfold bind, Ok. apply f_equal.
  rewrite terminated_concat.
  - unfold spec_table. rewrite map_map, <- append_assoc.
    rewrite drop_last_append by (simpl; lia).
    change (Py.drop_last 1 ", ") with ",".
    now rewrite !append_assoc.
  - discriminate.
Qed.

End Loops.

(** ** Runs of the script *)

Section Runs.

Lemma runs_inner_deterministic (cs : list ascii) (s s1 s2 : string) :
  runs_inner cs s s1 -> runs_inner cs s s2 -> s1 = s2.
Proof.
  intros H1. revert s2.
  induction H1 as [s|c cs s s' Hc _ IH|c cs s s' Hc _ IH];
    intros s2 H2; inversion H2; subst; try contradiction; auto.
Qed.

Lemma runs_outer_deterministic (ns : list Z) (s : string) (r1 r2 : result string) :
  runs_outer ns s r1 -> runs_outer ns s r2 -> r1 = r2.
Proof.
  intros H1. revert r2.
  induction H1 as [s|n ns s digits s' r Hd Hi _ IH|n ns s e Hd];
    intros r2 H2; inversion H2 as [|? ? ? digits2 s2 ? Hd2 Hi2 Ho2|? ? ? e2 Hd2];
    subst.
  - reflexivity.
  - rewrite Hd in Hd2. injection Hd2 as <-.
    rewrite <- (runs_inner_deterministic _ _ _ _ Hi Hi2) in Ho2. auto.
  - rewrite Hd in Hd2. discriminate.
  - rewrite Hd in Hd2. discriminate.
  - rewrite Hd in Hd2. exact Hd2.
Qed.

(** The functions of the embedding compute the runs. *)
Lemma runs_inner_fold (cs : list ascii) :
  forall s, runs_inner cs s (fold_left inner_body cs s).
Proof.
  induction cs as [|c cs IH]; intros s; [constructor |].
  simpl. unfold inner_body at 2.
  destruct (Ascii.eqb_spec c "0") as [E|E].
  - apply inner_zero; [exact E | apply IH].
  - apply inner_other; [exact E | apply IH].
Qed.

Lemma runs_outer_for_each (ns : list Z) :
  forall s, runs_outer ns s (for_each outer_body ns s).
Proof.
  induction ns as [|n ns IH]; intros s; [constructor |].
  cbn [for_each]. unfold outer_body at 1.
  destruct (Np.binary_repr n 8) as [e|digits] eqn:Hd.
  - apply outer_raise. exact Hd.
  - apply outer_next with (digits := digits) (s' := inner_loop digits (s ++ "[")).
    + exact Hd.
    + apply runs_inner_fold.
    + apply IH.
Qed.

Lemma runs_script_main : runs_script main.
Proof.
  pose proof (runs_outer_for_each (Py.range 256) header) as H.
  unfold main, generate.
  destruct (for_each outer_body (Py.range 256) header) as [e|s].
  - apply script_raises. exact H.
  - apply script_prints. exact H.
Qed.

Lemma main_output (text : string) :
  generate = Ok text -> main = Ok (text ++ String newline "").
Proof.
  intros H. unfold main. rewrite H. reflexivity.
Qed.

End Runs.

(** ** No line feed *)

Section Newlines.

Lemma in_firstn {A : Type} (x : A) (l : list A) :
  forall n, In x (firstn n l) -> In x l.
Proof.
  induction l as [|y l IH]; intros [|n]; simpl; try tauto.
  intros [E|H]; [now left | right; eauto].
Qed.

Lemma newline_free_append (a b : string) :
  newline_free a -> newline_free b -> newline_free (a ++ b).
Proof.
  unfold newline_free. rewrite list_ascii_of_append, in_app_iff. tauto.
Qed.

Lemma newline_free_drop_last (k : nat) (s : string) :
  newline_free s -> newline_free (Py.drop_last k s).
Proof.
  unfold newline_free, Py.drop_last. rewrite list_ascii_of_substring.
  intros H Hin. apply H. eapply in_firstn. exact Hin.
Qed.

Lemma newline_free_literal (s : string) :
  forallb (fun c => negb (Ascii.eqb c newline)) (list_ascii_of_string s) = true ->
  newline_free s.
Proof.
  intros H Hin. rewrite forallb_forall in H. specialize (H _ Hin).
  now rewrite Ascii.eqb_refl in H.
Qed.

(** Both loops keep [s] free of line feeds, whatever they iterate over:
    every string they append is a literal without one. *)
Lemma runs_inner_newline_free (cs : list ascii) (s s' : string) :
  runs_inner cs s s' -> newline_free s -> newline_free s'.
Proof.
  induction 1 as [s|c cs s s' _ _ IH|c cs s s' _ _ IH]; intros Hs.
  - exact Hs.
  - apply IH, newline_free_append; [exact Hs |].
    now apply newline_free_literal.
  - apply IH, newline_free_append; [exact Hs |].
    now apply newline_free_literal.
Qed.

Lemma runs_outer_newline_free (ns : list Z) (s : string) (r : result string) :
  runs_outer ns s r ->
  newline_free s -> forall s', r = Ok s' -> newline_free s'.
Proof.
  induction 1 as [s|n ns s digits s' r _ Hi _ IH|n ns s e _];
    intros Hs s2 E.
  - injection E as <-. exact Hs.
  - apply IH; [| exact E].
    apply newline_free_append; [| now apply newline_free_literal].
    apply newline_free_drop_last.
    apply (runs_inner_newline_free _ _ _ Hi).
    apply newline_free_append; [exact Hs | now apply newline_free_literal].
  - discriminate.
Qed.

Lemma generate_newline_free (text : string) :
  generate = Ok text -> newline_free text.
Proof.
  unfold generate. intros H.
  pose proof (runs_outer_for_each (Py.range 256) header) as Hr.
  destruct (for_each outer_body (Py.range 256) header) as [e|s];
    [discriminate |].
  unfold bind, Ok in H. injection H as <-.
  apply newline_free_append; [| now apply newline_free_literal].
  apply newline_free_drop_last.
  apply (runs_outer_newline_free _ _ _ Hr); [| reflexivity].
  now apply newline_free_literal.
Qed.

End Newlines.

(** ** The table read from the printed text *)

Section Table.

Lemma nth_error_bits_msb (n : Z) (w i : nat) :
  i < w ->
  nth_error (bits_msb n w) i = Some (Z.testbit n (Z.of_nat (w - 1 - i))).
Proof.
  intros Hi. unfold bits_msb.
  rewrite nth_error_map, nth_error_seq.
  destruct (Nat.ltb_spec i w) as [_|H]; [reflexivity | lia].
Qed.

Lemma nth_error_spec_table (n : Z) :
  is_byte n -> nth_error spec_table (Z.to_nat n) = Some (bits_msb n 8).
Proof.
  intros Hn. unfold is_byte in Hn. unfold spec_table, Py.range.
  rewrite !nth_error_map, nth_error_seq.
  destruct (Nat.ltb_spec (Z.to_nat n) 256) as [_|H]; [| lia].
  cbn [option_map]. now rewrite Nat.add_0_l, Z2Nat.id by lia.
Qed.

Lemma length_spec_table : List.length spec_table = 256.
Proof.
  unfold spec_table, Py.range. now rewrite !length_map, length_seq.
Qed.

Lemma spec_table_rows : Forall (fun row => List.length row = 8) spec_table.
Proof.
  apply Forall_forall. intros row Hrow. unfold spec_table in Hrow.
  apply in_map_iff in Hrow. destruct Hrow as [n [<- _]].
  apply length_bits_msb.
Qed.

Example read_table_plain :
  Rust.read_table "const T: [[bool; 2]; 2] = [[true, false], [false, true]];"
  = Some [[true; false]; [false; true]].
Proof. reflexivity. Qed.

Example read_table_trailing_comma :
  Rust.read_table "const T: [[bool; 2]; 2] = [[true, false], [false, true],];"
  = Some [[true; false]; [false; true]].
Proof. reflexivity. Qed.

Example read_table_missing_comma :
  Rust.read_table "const T: [[bool; 2]; 2] = [[true, false] [false, true]];"
  = None.
Proof. reflexivity. Qed.

Example read_table_not_bool :
  Rust.read_table "const T: [[bool; 2]; 2] = [[true, 0], [false, true]];"
  = None.
Proof. reflexivity. Qed.

(** The text in the form of the specification denotes the table of the
    specification. *)
Lemma read_spec_text : Rust.read_table (spec_text spec_table) = Some spec_table.
Proof.
  vm_compute. reflexivity.
Qed.

(** Reading the printed text back gives the table. *)
Lemma read_generated (text : string) :
  generate = Ok text -> Rust.read_table text = Some spec_table.
Proof.
  rewrite generate_text. intros H. apply Ok_inj in H. subst text.
  vm_compute. reflexivity.
Qed.

End Table.

(** ** The properties of the specification *)

(** Splits a goal into its conjuncts, and no further. *)
Ltac conjuncts :=
  repeat match goal with
         | |- _ /\ _ => split
         end.

(** The generator returns; [text] names what it returns. *)
Ltac generated text :=
  let e := fresh "e" in
  let Hg := fresh "Hg" in
  destruct generate as [e|text] eqn:Hg;
  [rewrite generate_text in Hg; discriminate |].

(** C1: for every byte value [n] and every position [i] from 0 to 7, the
    [i]-th boolean of the [n]-th row read from the printed text is bit
    [7 - i] of [n]; and the row, written with ['1'] for [true] and ['0'] for
    [false], is the 8-digit binary representation of [n]. *)
Theorem table_entry_bit (n i : Z) :
  (0 <= n < 256)%Z -> (0 <= i < 8)%Z ->
  exists text rows row,
    generate = Ok text
    /\ Rust.read_table text = Some rows
    /\ nth_error rows (Z.to_nat n) = Some row
    /\ nth_error row (Z.to_nat i) = Some (Z.testbit n (7 - i))
    /\ Np.binary_repr n 8 = Ok (digits_of_bools row)
    /\ value_of_bits row = n.
Proof.
  intros Hn Hi.
  generated text.
  exists text, spec_table, (bits_msb n 8). conjuncts.
  - reflexivity.
  - now apply read_generated.
  - now apply nth_error_spec_table.
  - rewrite nth_error_bits_msb by lia. do 2 f_equal. lia.
  - apply binary_repr_bits; [lia | exact Hn].
  - apply value_of_bits_msb. exact Hn.
Qed.

Lemma table_entry_bit_witness :
  (0 <= 166 < 256)%Z /\ (0 <= 2 < 8)%Z
  /\ exists text rows row,
      generate = Ok text
      /\ Rust.read_table text = Some rows
      /\ nth_error rows (Z.to_nat 166) = Some row
      /\ nth_error row (Z.to_nat 2) = Some (Z.testbit 166 (7 - 2))
      /\ Np.binary_repr 166 8 = Ok (digits_of_bools row)
      /\ value_of_bits row = 166%Z.
Proof.
  split; [lia |]. split; [lia |].
  apply (table_entry_bit 166 2); lia.
Defined.

(** C3: the table read from the printed text has exactly 256 rows, and every
    row has exactly 8 booleans. *)
Theorem table_shape :
  exists text rows,
    generate = Ok text
    /\ Rust.read_table text = Some rows
    /\ List.length rows = 256
    /\ Forall (fun row => List.length row = 8) rows.
Proof.
  generated text.
  exists text, spec_table. conjuncts.
  - reflexivity.
  - now apply read_generated.
  - exact length_spec_table.
  - exact spec_table_rows.
Qed.

(** C4: the row read for byte value 0 is eight times [false], and the row
    read for byte value 255 is eight times [true]. *)
Theorem table_rows_0_255 :
  exists text rows,
    generate = Ok text
    /\ Rust.read_table text = Some rows
    /\ nth_error rows 0
       = Some [false; false; false; false; false; false; false; false]
    /\ nth_error rows 255
       = Some [true; true; true; true; true; true; true; true].
Proof.
  generated text.
  exists text, spec_table. conjuncts.
  - reflexivity.
  - now apply read_generated.
  - exact (nth_error_spec_table 0 ltac:(unfold is_byte; lia)).
  - exact (nth_error_spec_table 255 ltac:(unfold is_byte; lia)).
Qed.

(** C5: the row read for byte value 1 has its last boolean alone [true], and
    the row read for byte value 128 has its first boolean alone [true]. *)
Theorem table_rows_1_128 :
  exists text rows,
    generate = Ok text
    /\ Rust.read_table text = Some rows
    /\ nth_error rows 1
       = Some [false; false; false; false; false; false; false; true]
    /\ nth_error rows 128
       = Some [true; false; false; false; false; false; false; false].
Proof.
  generated text.
  exists text, spec_table. conjuncts.
  - reflexivity.
  - now apply read_generated.
  - exact (nth_error_spec_table 1 ltac:(unfold is_byte; lia)).
  - exact (nth_error_spec_table 128 ltac:(unfold is_byte; lia)).
Qed.

(** C2: the printed text is not of the form the specification states.  It is
    the header, the 256 bracketed rows separated by comma and space, and the
    closing [];] -- with one more comma in front of the closing bracket, so
    that it ends with [true],];] and not with [true]];]. *)
Theorem generate_not_spec_text :
  exists body,
    generate = Ok (body ++ ",];")
    /\ spec_text spec_table = body ++ "];"
    /\ generate <> Ok (spec_text spec_table)
    /\ Py.endswith (body ++ ",];")
         "[true, true, true, true, true, true, true, true]];" = false
    /\ Py.endswith (spec_text spec_table)
         "[true, true, true, true, true, true, true, true]];" = true.
Proof.
  exists (header ++ String.concat ", " (map row_literal spec_table)). conjuncts.
  - rewrite generate_text. now rewrite append_assoc.
  - unfold spec_text. now rewrite append_assoc.
  - rewrite generate_text. unfold spec_text. intros H. apply Ok_inj in H.
    apply (f_equal length) in H.
    rewrite !length_append in H.
    change (length ",];") with 3 in H. change (length "];") with 2 in H. lia.
  - vm_compute. reflexivity.
  - vm_compute. reflexivity.
Qed.

(** C6: the script is deterministic: any two runs end in the same result,
    with the same text on standard output. *)
Theorem runs_script_deterministic (r1 r2 : result string) :
  runs_script r1 -> runs_script r2 -> r1 = r2.
Proof.
  intros H1 H2.
  inversion H1 as [s1 Ho1|e1 Ho1]; inversion H2 as [s2 Ho2|e2 Ho2]; subst;
    pose proof (runs_outer_deterministic _ _ _ _ Ho1 Ho2) as E.
  - injection E as <-. reflexivity.
  - discriminate.
  - discriminate.
  - exact E.
Qed.

Lemma runs_script_deterministic_witness :
  runs_script main /\ main = main.
Proof.
  split.
  - exact runs_script_main.
  - apply (runs_script_deterministic main main); exact runs_script_main.
Defined.

(** C7: the script always runs to its end and never raises: there is a run
    that prints, no run ends in an exception, [binary_repr] returns for every
    element of [range(256)], and the generator returns the text of which the
    script prints one line. *)
Theorem script_total :
  (exists out, runs_script (Ok out))
  /\ (forall e, ~ runs_script (Raise e))
  /\ Forall (fun n => exists digits, Np.binary_repr n 8 = Ok digits) (Py.range 256)
  /\ exists text, generate = Ok text /\ main = Ok (text ++ String newline "").
Proof.
  generated text.
  pose proof (main_output text Hg) as Hm.
  pose proof runs_script_main as Hr. rewrite Hm in Hr.
  conjuncts.
  - eexists. exact Hr.
  - intros e He. inversion He as [|e' Ho]; subst.
    pose proof (runs_outer_for_each (Py.range 256) header) as Ho'.
    rewrite (for_each_rows _ range_bytes) in Ho'.
    pose proof (runs_outer_deterministic _ _ _ _ Ho Ho'). discriminate.
  - eapply Forall_impl; [| exact range_bytes].
    intros n Hn. eexists. apply binary_repr_bits; [lia | exact Hn].
  - exists text. split; [reflexivity | exact Hm].
Qed.

(** C8: the outer loop puts a comma and a space after every row, the last one
    included, and the last line of the script removes the space alone: the
    printed text ends with [],];], not with []];]. *)
Theorem generate_trailing_comma :
  exists s text,
    for_each outer_body (Py.range 256) header = Ok s
    /\ s = header ++ terminated ", " (map row_literal spec_table)
    /\ generate = Ok text
    /\ text = Py.drop_last 1 s ++ "];"
    /\ Py.endswith text "],];" = true
    /\ Py.endswith text "]];" = false.
Proof.
  exists (header ++ terminated ", " (map row_literal spec_table)).
  exists (header ++ String.concat ", " (map row_literal spec_table) ++ ",];").
  assert (Hs : for_each outer_body (Py.range 256) header
               = Ok (header ++ terminated ", " (map row_literal spec_table))).
  { rewrite (for_each_rows _ range_bytes). unfold spec_table. now rewrite map_map. }
  conjuncts.
  - exact Hs.
  - reflexivity.
  - exact generate_text.
  - pose proof generate_text as Hg. unfold generate in Hg.
    rewrite Hs in Hg. unfold bind in Hg. apply Ok_inj in Hg.
    symmetry. exact Hg.
  - vm_compute. reflexivity.
  - vm_compute. reflexivity.
Qed.

(** C9: the inner loop appends [false] for ['0'] and [true] for any other
    character; for every byte value [n], the 8 digits [binary_repr] returns
    are all ['0'] or ['1'], so that on them the [else] branch is taken exactly
    for ['1'], and the loop appends what the mapping ['0' -> false],
    ['1' -> true] of the specification appends. *)
Theorem digits_binary (n : Z) :
  (0 <= n < 256)%Z ->
  (forall s, inner_body s "0" = s ++ "false, ")
  /\ (forall s c, c <> "0"%char -> inner_body s c = s ++ "true, ")
  /\ exists digits,
      Np.binary_repr n 8 = Ok digits
      /\ length digits = 8
      /\ (forall c, In c (list_ascii_of_string digits) ->
            (c = "0" \/ c = "1")%char
            /\ (Ascii.eqb c "0" = false <-> c = "1"%char)
            /\ forall s, option_map (append s) (spec_literal c)
                         = Some (inner_body s c))
      /\ forall s, spec_inner_loop (list_ascii_of_string digits) s
                   = Some (inner_loop digits s).
Proof.
  intros Hn. split; [reflexivity |]. split.
  { intros s c Hc. unfold inner_body.
    now destruct (Ascii.eqb_spec c "0"). }
  exists (digits_of_bools (bits_msb n 8)).
  assert (Hc : forall c,
             In c (list_ascii_of_string (digits_of_bools (bits_msb n 8))) ->
             (c = "0" \/ c = "1")%char).
  { intros c Hin. unfold digits_of_bools in Hin.
    rewrite list_ascii_of_string_of_list_ascii in Hin.
    apply in_map_iff in Hin. destruct Hin as [[|] [<- _]]; auto. }
  conjuncts.
  - apply binary_repr_bits; [lia | exact Hn].
  - unfold digits_of_bools.
    now rewrite length_string_of_list_ascii, length_map, length_bits_msb.
  - intros c Hin. destruct (Hc c Hin) as [-> | ->]; conjuncts.
    + now left.
    + split; discriminate.
    + reflexivity.
    + now right.
    + split; reflexivity.
    + reflexivity.
  - unfold inner_loop.
    induction (list_ascii_of_string (digits_of_bools (bits_msb n 8)))
      as [|c cs IH]; intros s; [reflexivity |].
    simpl. destruct (Hc c (or_introl eq_refl)) as [-> | ->];
      unfold spec_literal, inner_body; simpl; apply IH;
      intros c' Hin; apply Hc; now right.
Qed.

Lemma digits_binary_witness :
  (0 <= 166 < 256)%Z
  /\ (forall s, inner_body s "0" = s ++ "false, ")
  /\ (forall s c, c <> "0"%char -> inner_body s c = s ++ "true, ")
  /\ exists digits,
      Np.binary_repr 166 8 = Ok digits
      /\ length digits = 8
      /\ (forall c, In c (list_ascii_of_string digits) ->
            (c = "0" \/ c = "1")%char
            /\ (Ascii.eqb c "0" = false <-> c = "1"%char)
            /\ forall s, option_map (append s) (spec_literal c)
                         = Some (inner_body s c))
      /\ forall s, spec_inner_loop (list_ascii_of_string digits) s
                   = Some (inner_loop digits s).
Proof.
  split; [lia |]. apply (digits_binary 166); lia.
Defined.

(** C10: the generated text holds no line feed; the script prints it as one
    line, whose end is the only line feed on standard output. *)
Theorem generate_single_line :
  exists text,
    generate = Ok text
    /\ newline_free text
    /\ main = Ok (text ++ String newline "")
    /\ newlines (text ++ String newline "") = 1.
Proof.
  generated text.
  pose proof (generate_newline_free text Hg) as Hnl.
  exists text. conjuncts.
  - reflexivity.
  - exact Hnl.
  - now apply main_output.
  - unfold newlines. rewrite list_ascii_of_append, count_occ_app.
    apply (count_occ_not_In ascii_dec) in Hnl. rewrite Hnl. reflexivity.
Qed.

(** ** Further properties of the loops *)

Section MoreLoops.

Lemma range_le_bytes (k : nat) : k <= 256 -> Forall is_byte (Py.range k).
Proof.
  intros Hk. unfold Py.range. apply Forall_forall. intros n Hn.
  apply in_map_iff in Hn. destruct Hn as [i [<- Hi]].
  apply in_seq in Hi. unfold is_byte. lia.
Qed.

(** The inner loop on any characters: one literal and a separator each. *)
Lemma inner_loop_words (cs : list ascii) :
  forall s, fold_left inner_body cs s
            = s ++ terminated ", " (map word_of_digit cs).
Proof.
  induction cs as [|c cs IH]; intros s.
  - simpl. now rewrite append_empty_r.
  - cbn [fold_left map terminated]. rewrite IH.
    unfold inner_body, word_of_digit.
    destruct (Ascii.eqb c "0"); now rewrite !append_assoc.
Qed.

Lemma length_bin_digits_pos (p : positive) : 1 <= length (Py.bin_digits p).
Proof.
  destruct (bin_digits_head p) as [r ->]. simpl. lia.
Qed.

(** [binary_repr] never returns the empty string, on any number and any
    width. *)
Lemma binary_repr_nonempty (n : Z) (w : nat) (digits : string) :
  Np.binary_repr n w = Ok digits -> 1 <= length digits.
Proof.
  destruct n as [|p|p]; unfold Np.binary_repr; cbv zeta.
  - intros H. apply Ok_inj in H. subst digits.
    rewrite length_replicate. destruct w; simpl; lia.
  - unfold Np.err_if_insufficient.
    destruct (Nat.ltb w (length (Py.bin_digits p))); unfold bind, Raise, Ok;
      [discriminate |].
    intros H. injection H as <-.
    rewrite zfill_bin_digits, length_append.
    pose proof (length_bin_digits_pos p). lia.
  - unfold Np.err_if_insufficient.
    match goal with
    | |- context [Nat.ltb w (length ?b)] =>
        assert (Hb : 1 <= length b)
          by (match goal with
              | |- context [match ?z with Z0 => _ | Zpos _ => _ | Zneg _ => _ end] =>
                  destruct z; [simpl; lia | apply length_bin_digits_pos | simpl; lia]
              end);
        generalize dependent b
    end.
    intros b Hb.
    destruct (Nat.ltb w (length b)); unfold bind, Raise, Ok; [discriminate |].
    intros H. injection H as <-. rewrite length_append. lia.
Qed.

Lemma all_printable_check (s : string) :
  forallb printable (list_ascii_of_string s) = true -> all_printable s.
Proof.
  intros H. apply Forall_forall. now apply forallb_forall.
Qed.

Lemma all_printable_append (a b : string) :
  all_printable a -> all_printable b -> all_printable (a ++ b).
Proof.
  unfold all_printable. rewrite list_ascii_of_append.
  intros Ha Hb. apply Forall_app. now split.
Qed.

Lemma all_printable_drop_last (k : nat) (s : string) :
  all_printable s -> all_printable (Py.drop_last k s).
Proof.
  unfold all_printable, Py.drop_last. rewrite list_ascii_of_substring.
  rewrite !Forall_forall. intros H c Hc. apply H. eapply in_firstn. exact Hc.
Qed.

Lemma inner_loop_printable (cs : list ascii) :
  forall s, all_printable s -> all_printable (fold_left inner_body cs s).
Proof.
  induction cs as [|c cs IH]; intros s Hs; [exact Hs |].
  cbn [fold_left]. apply IH. unfold inner_body.
  destruct (Ascii.eqb c "0");
    (apply all_printable_append;
     [exact Hs | now apply all_printable_check]).
Qed.

Lemma outer_body_printable (s : string) (n : Z) (s' : string) :
  outer_body s n = Ok s' -> all_printable s -> all_printable s'.
Proof.
  unfold outer_body.
  destruct (Np.binary_repr n 8) as [e|digits]; unfold bind, Ok;
    [discriminate |].
  intros H Hs. injection H as <-.
  apply all_printable_append; [| now apply all_printable_check].
  apply all_printable_drop_last. unfold inner_loop.
  apply inner_loop_printable.
  apply all_printable_append; [exact Hs | now apply all_printable_check].
Qed.

Lemma for_each_printable (ns : list Z) :
  forall s s', for_each outer_body ns s = Ok s' ->
               all_printable s -> all_printable s'.
Proof.
  induction ns as [|n ns IH]; intros s s' H Hs.
  - apply Ok_inj in H. now subst s'.
  - cbn [for_each] in H.
    destruct (outer_body s n) as [e|s1] eqn:Hb; unfold bind in H;
      [discriminate |].
    apply (IH s1 s' H). exact (outer_body_printable s n s1 Hb Hs).
Qed.

End MoreLoops.

(** X1: after its first [k] turns, for any [k] up to 256, the outer loop has
    not raised and [s] is the header followed by the rows of 0 .. k-1 in
    order, each row followed by a comma and a space. *)
Theorem outer_loop_after (k : nat) :
  k <= 256 ->
  for_each outer_body (Py.range k) header
  = Ok (header
        ++ terminated ", " (map (fun n => row_literal (bits_msb n 8)) (Py.range k))).
Proof.
  intros Hk. apply for_each_rows. now apply range_le_bytes.
Qed.

Lemma outer_loop_after_witness :
  2 <= 256
  /\ for_each outer_body (Py.range 2) header
     = Ok (header
           ++ terminated ", "
                (map (fun n => row_literal (bits_msb n 8)) (Py.range 2))).
Proof.
  split; [lia |]. apply (outer_loop_after 2). lia.
Defined.

(** X2: one turn of the outer loop, for any integer [n] on which
    [binary_repr] returns and after any text [s], leaves [s] untouched and
    appends to it one bracketed row and the separator: the slice of line 12
    removes the separator after the last literal and nothing else, since the
    digit string is never empty.  Every digit other than ['0'] gives
    [true]. *)
Theorem outer_body_appends (s : string) (n : Z) (s' : string) :
  outer_body s n = Ok s' ->
  exists digits,
    Np.binary_repr n 8 = Ok digits
    /\ 1 <= length digits
    /\ s' = s ++ "["
            ++ String.concat ", " (map word_of_digit (list_ascii_of_string digits))
            ++ "], ".
Proof.
  unfold outer_body.
  destruct (Np.binary_repr n 8) as [e|digits] eqn:Hd; unfold bind;
    [discriminate |].
  intros H. apply Ok_inj in H. subst s'.
  pose proof (binary_repr_nonempty n 8 digits Hd) as Hlen.
  exists digits. conjuncts; [reflexivity | exact Hlen |].
  unfold inner_loop. rewrite inner_loop_words, terminated_concat.
  - rewrite <- append_assoc. change 2 with (length ", ").
    rewrite drop_last_suffix. now rewrite !append_assoc.
  - destruct digits; simpl in *; [lia | discriminate].
Qed.

Lemma outer_body_appends_witness :
  exists digits,
    Np.binary_repr 200 8 = Ok digits
    /\ 1 <= length digits
    /\ "x[true, true, false, false, true, false, false, false], "
       = "x" ++ "["
         ++ String.concat ", " (map word_of_digit (list_ascii_of_string digits))
         ++ "], ".
Proof.
  apply (outer_body_appends "x" 200
           "x[true, true, false, false, true, false, false, false], ").
  reflexivity.
Defined.

(** X3: both loops keep [s] within the printable characters of ASCII,
    whatever the outer loop iterates over; so every character of the
    generated text has a code from 32 to 126. *)
Theorem generate_printable :
  (forall ns s s',
      for_each outer_body ns s = Ok s' -> all_printable s -> all_printable s')
  /\ exists text,
      generate = Ok text
      /\ forall c, In c (list_ascii_of_string text) ->
                   32 <= nat_of_ascii c <= 126.
Proof.
  split; [intros ns; apply for_each_printable |].
  generated text. exists text. split; [reflexivity |].
  assert (Hp : all_printable text).
  { unfold generate in Hg.
    destruct (for_each outer_body (Py.range 256) header) as [e|s] eqn:Hs;
      unfold bind in Hg; [discriminate |].
    apply Ok_inj in Hg. subst text.
    apply all_printable_append; [| now apply all_printable_check].
    apply all_printable_drop_last.
    apply (for_each_printable _ _ _ Hs).
    now apply all_printable_check. }
  intros c Hc. unfold all_printable in Hp. rewrite Forall_forall in Hp.
  specialize (Hp c Hc). unfold printable in Hp.
  apply andb_true_iff in Hp. destruct Hp as [H1 H2].
  apply Nat.leb_le in H1. apply Nat.leb_le in H2. lia.
Qed.

(** X4: the rows read from the printed text for two different byte values
    are different: a row determines its index. *)
Theorem table_rows_distinct (n m : Z) :
  (0 <= n < 256)%Z -> (0 <= m < 256)%Z ->
  exists text rows,
    generate = Ok text
    /\ Rust.read_table text = Some rows
    /\ (nth_error rows (Z.to_nat n) = nth_error rows (Z.to_nat m) -> n = m).
Proof.
  intros Hn Hm. generated text. exists text, spec_table. conjuncts.
  - reflexivity.
  - now apply read_generated.
  - rewrite !nth_error_spec_table by assumption.
    intros E.
    assert (E' : value_of_bits (bits_msb n 8) = value_of_bits (bits_msb m 8))
      by congruence.
    now rewrite !value_of_bits_msb in E' by assumption.
Qed.

Lemma table_rows_distinct_witness :
  exists text rows,
    generate = Ok text
    /\ Rust.read_table text = Some rows
    /\ (nth_error rows (Z.to_nat 3) = nth_error rows (Z.to_nat 130) -> 3 = 130)%Z.
Proof.
  apply (table_rows_distinct 3 130); lia.
Defined.
